(** * A shallow embedding of [app/main.py], the RAG pipeline script

    The script is glue code: every function of [main.py] wires calls into
    third-party collaborators (python-dotenv, the web loader, the text
    splitter, the embedding service, the Chroma index, the prompt hub, the
    chat model and the output parser).  The embedding keeps that shape:

    - the collaborators are the fields of one interface, [Collaborators];
      every theorem below holds for all of them;
    - a Python computation is a function from the state of the process
      (environment variables, the outside world, what was printed and
      called so far) to an outcome, a value or a raised exception, and the
      next state;
    - [try ... except Exception] catches what Python's class [Exception]
      covers and lets [KeyboardInterrupt], [SystemExit] and the like pass. *)

From Stdlib Require Import String Ascii List ZArith Lia.
From stdpp Require Import base gmap strings list.
Import ListNotations.

Local Open Scope string_scope.
Local Open Scope Z_scope.

(** ** Python values and exceptions *)

(** [langchain_core.documents.Document]: the text and its metadata. *)
Record Document := mkDocument {
  page_content : string;
  metadata : list (string * string)
}.

(** What a [raise] carries.  [ValueError] is the one class [main.py] raises
    itself; [LibraryError] is any other subclass of [Exception] coming out
    of a collaborator; [Interrupt] stands for the classes that derive from
    [BaseException] only. *)
Inductive exn :=
| ValueError (msg : string)
| LibraryError (cls msg : string)
| Interrupt (cls : string).

(** [isinstance(e, Exception)] *)
Definition is_Exception (e : exn) : bool :=
  match e with
  | ValueError _ | LibraryError _ _ => true
  | Interrupt _ => false
  end.

(** [str(e)], what an f-string prints for [{e}]. *)
Definition str_exn (e : exn) : string :=
  match e with
  | ValueError msg => msg
  | LibraryError _ msg => msg
  | Interrupt _ => ""
  end.

Inductive outcome (A : Type) :=
| Return (a : A)
| Raise (e : exn).
Arguments Return {A} a.
Arguments Raise {A} e.

(** ** Observable behaviour: what is printed and which collaborator is called *)

Inductive call :=
| Load_dotenv
| WebBaseLoader_init (web_paths : list string) (classes : list string)
| Loader_load
| TextSplitter_init (chunk_size chunk_overlap : Z)
| Split_documents (docs : list Document)
| OpenAIEmbeddings_init
| Chroma_from_documents (docs : list Document)
| As_retriever
| ChatOpenAI_init (model : string)
| Hub_pull (name : string)
| Retriever_invoke (query : string)
| Prompt_invoke (inputs : gmap string string)
| Llm_invoke
| Parser_invoke.

Inductive event :=
| Print (line : string)
| Call (c : call).

(** ** The collaborators

    [X] is the state of everything outside the process (the network, the
    remote services, the [.env] file).  A service reads and changes it, so
    two calls with the same arguments need not answer alike. *)
Record Collaborators := {
  X : Type;
  loader : Type;
  splitter : Type;
  embeddings : Type;
  vectorstore : Type;
  retriever : Type;
  chat_model : Type;
  prompt_template : Type;
  prompt_value : Type;
  message : Type;
  (* dotenv.load_dotenv(): the environment after the merge of the .env file *)
  load_dotenv : gmap string string -> X -> gmap string string * X;
  (* WebBaseLoader(web_paths=..., bs_kwargs=dict(parse_only=SoupStrainer(class_=...))) *)
  WebBaseLoader : list string -> list string -> X -> outcome loader * X;
  (* loader.load() *)
  load : loader -> X -> outcome (list Document) * X;
  (* RecursiveCharacterTextSplitter(chunk_size=..., chunk_overlap=...) *)
  RecursiveCharacterTextSplitter : Z -> Z -> X -> outcome splitter * X;
  (* text_splitter.split_documents(documentos) *)
  split_documents : splitter -> list Document -> X -> outcome (list Document) * X;
  (* OpenAIEmbeddings(), which reads the credential from the environment *)
  OpenAIEmbeddings : gmap string string -> X -> outcome embeddings * X;
  (* Chroma.from_documents(documents=..., embedding=...) *)
  from_documents : list Document -> embeddings -> X -> outcome vectorstore * X;
  (* vectorstore.as_retriever() *)
  as_retriever : vectorstore -> X -> outcome retriever * X;
  (* ChatOpenAI(model=...) *)
  ChatOpenAI : string -> gmap string string -> X -> outcome chat_model * X;
  (* hub.pull(name) *)
  hub_pull : string -> X -> outcome prompt_template * X;
  (* the stages of the chain, each through its invoke *)
  retriever_invoke : retriever -> string -> X -> outcome (list Document) * X;
  prompt_invoke : prompt_template -> gmap string string -> X -> outcome prompt_value * X;
  llm_invoke : chat_model -> prompt_value -> X -> outcome message * X;
  StrOutputParser_invoke : message -> X -> outcome string * X
}.

(** ** The state of the process and the monad of Python computations *)

Record world (S : Type) := World {
  environ : gmap string string;
  ext : S;
  trace : list event
}.
Arguments World {S} _ _ _.
Arguments environ {S} _.
Arguments ext {S} _.
Arguments trace {S} _.

Definition M (S A : Type) : Type := world S -> outcome A * world S.

Definition ret {S A} (a : A) : M S A := fun w => (Return a, w).

Definition raise {S A} (e : exn) : M S A := fun w => (Raise e, w).

Definition bind {S A B} (m : M S A) (k : A -> M S B) : M S B :=
  fun w =>
    match m w with
    | (Return a, w') => k a w'
    | (Raise e, w') => (Raise e, w')
    end.

Declare Scope py_scope.
Delimit Scope py_scope with py.
Notation "x <- m ;; k" := (bind m (fun x => k))
  (at level 100, m at next level, right associativity) : py_scope.
Notation "m ;; k" := (bind m (fun _ => k))
  (at level 100, right associativity) : py_scope.

(** [try: body except Exception as e: handler(e)] *)
Definition try_except {S A} (body : M S A) (handler : exn -> M S A) : M S A :=
  fun w =>
    match body w with
    | (Return a, w') => (Return a, w')
    | (Raise e, w') => if is_Exception e then handler e w' else (Raise e, w')
    end.

(** [print(line)] *)
Definition print {S} (line : string) : M S unit :=
  fun w => (Return tt, World (environ w) (ext w) (trace w ++ [Print line])).

(** A call into a collaborator: recorded, then answered by the outside. *)
Definition invoke_service {S A} (c : call) (svc : S -> outcome A * S) : M S A :=
  fun w =>
    let '(r, x') := svc (ext w) in
    (r, World (environ w) x' (trace w ++ [Call c])).

(** The state after more of the outside has been consumed and more events
    have happened; the environment variables are the same. *)
Definition after {S} (w : world S) (x : S) (events : list event) : world S :=
  World (environ w) x (trace w ++ events).

(** [os.environ.get(key)] and [os.environ[key] = value] *)
Definition environ_get {S} (key : string) : M S (option string) :=
  fun w => (Return (environ w !! key), w).

Definition environ_set {S} (key value : string) : M S unit :=
  fun w => (Return tt, World (<[key := value]> (environ w)) (ext w) (trace w)).

(** ** Constants of [main.py] *)

Definition DEFAULT_MODEL : string := "gpt-4o".
Definition DEFAULT_CHUNK_SIZE : Z := 1000.
Definition DEFAULT_CHUNK_OVERLAP : Z := 200.
Definition DEFAULT_PROMPT_TEMPLATE : string := "rlm/rag-prompt".

Definition OPENAI_API_KEY : string := "OPENAI_API_KEY".

Definition missing_key_message : string :=
  "OPENAI_API_KEY não encontrada nas variáveis de ambiente".

Definition POST_CLASSES : list string :=
  ["post-content"; "post-title"; "post-header"].

Definition URLS : list string :=
  ["https://lilianweng.github.io/posts/2023-06-23-agent"].

Definition QUESTION : string := "O que é decomposição de tarefas?".

Definition no_documents_message : string :=
  "Nenhum documento foi carregado. Verifique as URLs ou a conexão.".

(** The separator of [format_docs], two line feeds. *)
Definition BLANK_LINE : string := String "010" (String "010" EmptyString).

(** ** [str.join] and [format_docs] *)

(** [sep.join(items)]: the items are consumed left to right into one
    buffer, the separator going in before every item but the first. *)
Fixpoint join_from (sep buffer : string) (items : list string) : string :=
  match items with
  | [] => buffer
  | item :: rest => join_from sep (buffer +:+ sep +:+ item) rest
  end.

Definition str_join (sep : string) (items : list string) : string :=
  match items with
  | [] => ""
  | item :: rest => join_from sep item rest
  end.

(** [format_docs(docs)] *)
Definition format_docs (docs : list Document) : string :=
  str_join BLANK_LINE (map page_content docs).

(** The lines the handlers print. *)
Definition load_error_line (e : exn) : string :=
  "Erro ao carregar documentos: " +:+ str_exn e.

Definition index_error_line (e : exn) : string :=
  "Erro ao criar vectorstore: " +:+ str_exn e.

Definition main_error_line (e : exn) : string :=
  "Erro durante a execução: " +:+ str_exn e.

(** The context text in the words of the specification: the segment texts
    in retrieval order, a blank line between each two neighbours. *)
Fixpoint context_text (texts : list string) : string :=
  match texts with
  | [] => ""
  | [text] => text
  | text :: later => text +:+ BLANK_LINE +:+ context_text later
  end.

(** The dict the first stage of the chain hands to the prompt: the entries
    in the order [criar_rag_chain] writes them. *)
Definition prompt_inputs (docs : list Document) (question : string)
    : gmap string string :=
  <["question" := question]> (<["context" := format_docs docs]> ∅).

(** What a failed build of the index leaves behind after its calls: the
    line of the handler, when the handler runs. *)
Definition build_failure_log (e : exn) : list event :=
  if is_Exception e then [Print (index_error_line e)] else [].

Section Program.

Context {L : Collaborators}.

Local Open Scope py_scope.

Local Abbreviation py A := (M (X L) A) (only parsing).

(** A service that also reads the environment of the process. *)
Definition invoke_service_env {A} (c : call)
    (svc : gmap string string -> X L -> outcome A * X L) : py A :=
  fun w => invoke_service c (svc (environ w)) w.

(** [load_dotenv()] *)
Definition run_load_dotenv : py unit :=
  fun w =>
    let '(env', x') := load_dotenv L (environ w) (ext w) in
    (Return tt, World env' x' (trace w ++ [Call Load_dotenv])).

(** [configurar_ambiente()].  [not api_key] holds for [None] and for the
    empty string. *)
Definition configurar_ambiente : py unit :=
  run_load_dotenv;;
  api_key <- environ_get OPENAI_API_KEY;;
  match api_key with
  | None => raise (ValueError missing_key_message)
  | Some key =>
      if String.eqb key "" then raise (ValueError missing_key_message)
      else environ_set OPENAI_API_KEY key
  end.

(** [carregar_documentos(urls)] *)
Definition carregar_documentos (urls : list string) : py (list Document) :=
  try_except
    (loader <- invoke_service (WebBaseLoader_init urls POST_CLASSES)
                 (WebBaseLoader L urls POST_CLASSES);;
     invoke_service Loader_load (load L loader))
    (fun e =>
       print (load_error_line e);;
       ret []).

(** [dividir_documentos(documentos, tamanho_chunk, sobreposicao)] *)
Definition dividir_documentos (documentos : list Document)
    (tamanho_chunk sobreposicao : Z) : py (list Document) :=
  text_splitter <- invoke_service (TextSplitter_init tamanho_chunk sobreposicao)
                     (RecursiveCharacterTextSplitter L tamanho_chunk sobreposicao);;
  invoke_service (Split_documents documentos)
    (split_documents L text_splitter documentos).

(** [criar_vectorstore(documentos)].  The bare [raise] of the handler
    raises the caught exception again. *)
Definition criar_vectorstore (documentos : list Document) : py (vectorstore L) :=
  try_except
    (embedding <- invoke_service_env OpenAIEmbeddings_init (OpenAIEmbeddings L);;
     invoke_service (Chroma_from_documents documentos)
       (from_documents L documentos embedding))
    (fun e =>
       print (index_error_line e);;
       raise e).

(** *** The runnables of the chain

    A runnable is what [invoke] does with an input.  [a | b] feeds the
    output of [a] to [b]; a plain function on the right of [|] is run on
    the value; a dict of runnables gives every entry the same input and
    collects the outputs under the keys.  The two entries of the dict of
    [criar_rag_chain] are taken in the order they are written: the second
    one, [RunnablePassthrough()], calls nothing, so their interleaving is
    not observable. *)
Definition Runnable (A B : Type) : Type := A -> py B.

Definition pipe {A B C} (first : Runnable A B) (second : Runnable B C) : Runnable A C :=
  fun input => middle <- first input;; second middle.

Definition pipe_function {A B C} (first : Runnable A B) (f : B -> C) : Runnable A C :=
  fun input => middle <- first input;; ret (f middle).

Definition RunnablePassthrough {A} : Runnable A A := fun input => ret input.

Definition RunnableParallel {A} (key1 : string) (branch1 : Runnable A string)
    (key2 : string) (branch2 : Runnable A string) : Runnable A (gmap string string) :=
  fun input =>
    value1 <- branch1 input;;
    value2 <- branch2 input;;
    ret (<[key2 := value2]> (<[key1 := value1]> ∅)).

Definition retriever_runnable (r : retriever L) : Runnable string (list Document) :=
  fun query => invoke_service (Retriever_invoke query) (retriever_invoke L r query).

Definition prompt_runnable (p : prompt_template L)
    : Runnable (gmap string string) (prompt_value L) :=
  fun inputs => invoke_service (Prompt_invoke inputs) (prompt_invoke L p inputs).

Definition llm_runnable (llm : chat_model L) : Runnable (prompt_value L) (message L) :=
  fun value => invoke_service Llm_invoke (llm_invoke L llm value).

Definition StrOutputParser : Runnable (message L) string :=
  fun m => invoke_service Parser_invoke (StrOutputParser_invoke L m).

(** The expression [criar_rag_chain] returns. *)
Definition rag_chain (r : retriever L) (prompt : prompt_template L)
    (llm : chat_model L) : Runnable string string :=
  pipe
    (pipe
       (pipe
          (RunnableParallel
             "context" (pipe_function (retriever_runnable r) format_docs)
             "question" RunnablePassthrough)
          (prompt_runnable prompt))
       (llm_runnable llm))
    StrOutputParser.

(** [criar_rag_chain(retriever, modelo)] *)
Definition criar_rag_chain (r : retriever L) (modelo : string)
    : py (Runnable string string) :=
  llm <- invoke_service_env (ChatOpenAI_init modelo) (ChatOpenAI L modelo);;
  prompt <- invoke_service (Hub_pull DEFAULT_PROMPT_TEMPLATE)
              (hub_pull L DEFAULT_PROMPT_TEMPLATE);;
  ret (rag_chain r prompt llm).

(** The body of the [try] of [main()]. *)
Definition main_try : py unit :=
  configurar_ambiente;;
  documentos <- carregar_documentos URLS;;
  match documentos with
  | [] => print no_documents_message
  | _ :: _ =>
      chunks <- dividir_documentos documentos DEFAULT_CHUNK_SIZE DEFAULT_CHUNK_OVERLAP;;
      vectorstore <- criar_vectorstore chunks;;
      r <- invoke_service As_retriever (as_retriever L vectorstore);;
      chain <- criar_rag_chain r DEFAULT_MODEL;;
      resposta <- chain QUESTION;;
      print resposta
  end.

(** [main()] *)
Definition main : py unit :=
  try_except main_try (fun e => print (main_error_line e)).

End Program.

(** ** Test doubles

    Stand-ins for the collaborators, for running the program on concrete
    inputs.  The outside world is the number of requests served. *)
Module Doubles.

(** [load_dotenv()] leaves a variable alone that is set already. *)
Definition merge_dotenv (file env : gmap string string) : gmap string string :=
  env ∪ file.

(** A loader that visits its pages in order and stops at the first page
    whose download or parsing raises. *)
Fixpoint load_each (fetch : string -> outcome Document) (urls : list string)
    : outcome (list Document) :=
  match urls with
  | [] => Return []
  | url :: rest =>
      match fetch url with
      | Raise e => Raise e
      | Return doc =>
          match load_each fetch rest with
          | Raise e => Raise e
          | Return docs => Return (doc :: docs)
          end
      end
  end.

(** The documents of the pages that can be fetched, the others left out. *)
Fixpoint fetched (fetch : string -> outcome Document) (urls : list string)
    : list Document :=
  match urls with
  | [] => []
  | url :: rest =>
      match fetch url with
      | Raise _ => fetched fetch rest
      | Return doc => doc :: fetched fetch rest
      end
  end.

(** The argument check of the text splitter's constructor: the size must
    be positive, the overlap not negative and not larger than the size. *)
Definition check_sizes (chunk_size chunk_overlap : Z) : outcome (Z * Z) :=
  if chunk_size <=? 0 then Raise (ValueError "chunk_size must be > 0")
  else if chunk_overlap <? 0 then Raise (ValueError "chunk_overlap must be >= 0")
  else if chunk_overlap >? chunk_size
       then Raise (ValueError "Got a larger chunk overlap than chunk size")
  else Return (chunk_size, chunk_overlap).

Definition served {A} (r : outcome A) : nat -> outcome A * nat :=
  fun n => (r, S n).

Definition double
    (file : gmap string string)
    (fetch : string -> outcome Document)
    (split : Z * Z -> list Document -> outcome (list Document))
    (embed : list Document -> outcome (list Document))
    (retrieve : list Document -> string -> outcome (list Document))
    (render : gmap string string -> outcome string)
    (generate : string -> outcome string)
    (decode : string -> outcome string) : Collaborators :=
  {| X := nat;
     loader := list string;
     splitter := Z * Z;
     embeddings := unit;
     vectorstore := list Document;
     retriever := list Document;
     chat_model := string;
     prompt_template := string;
     prompt_value := string;
     message := string;
     load_dotenv := fun env n => (merge_dotenv file env, S n);
     WebBaseLoader := fun urls _ => served (Return urls);
     load := fun urls => served (load_each fetch urls);
     RecursiveCharacterTextSplitter := fun c o => served (check_sizes c o);
     split_documents := fun sizes docs => served (split sizes docs);
     OpenAIEmbeddings := fun _ => served (Return tt);
     from_documents := fun docs _ => served (embed docs);
     as_retriever := fun index => served (Return index);
     ChatOpenAI := fun model _ => served (Return model);
     hub_pull := fun name => served (Return name);
     retriever_invoke := fun index query => served (retrieve index query);
     prompt_invoke := fun _ inputs => served (render inputs);
     llm_invoke := fun _ value => served (generate value);
     StrOutputParser_invoke := fun m => served (decode m) |}.

Definition page (url : string) : Document :=
  mkDocument ("text of " +:+ url) [("source", url)].

Definition render_plainly (inputs : gmap string string) : outcome string :=
  Return (default "" (inputs !! "context") +:+ " ? "
          +:+ default "" (inputs !! "question")).

(** Every page loads, every service answers. *)
Definition all_well (file : gmap string string) : Collaborators :=
  double file
    (fun url => Return (page url))
    (fun _ docs => Return docs)
    (fun docs => Return docs)
    (fun index _ => Return (firstn 4 index))
    render_plainly
    (fun value => Return ("answer to " +:+ value))
    (fun m => Return m).

Definition start : world nat := World ∅ 0%nat [].

(** Two pages, the second of which cannot be reached. *)
Definition up : string := "https://up.example/post".
Definition down : string := "https://down.example/post".

Definition refused : exn := LibraryError "ConnectionError" "connection refused".

Definition fetch_but_down (url : string) : outcome Document :=
  if String.eqb url down then Raise refused else Return (page url).

Definition one_down : Collaborators :=
  double ∅ fetch_but_down
    (fun _ docs => Return docs)
    (fun docs => Return docs)
    (fun index _ => Return (firstn 4 index))
    render_plainly
    (fun value => Return ("answer to " +:+ value))
    (fun m => Return m).

(** The embedding service refuses the batch. *)
Definition rate_limited : exn := LibraryError "RateLimitError" "rate limit reached".

Definition embedding_down : Collaborators :=
  double ∅
    (fun url => Return (page url))
    (fun _ docs => Return docs)
    (fun _ => Raise rate_limited)
    (fun index _ => Return (firstn 4 index))
    render_plainly
    (fun value => Return ("answer to " +:+ value))
    (fun m => Return m).

(** The generation service is down. *)
Definition overloaded : exn := LibraryError "APIError" "model overloaded".

Definition generation_down : Collaborators :=
  double ∅
    (fun url => Return (page url))
    (fun _ docs => Return docs)
    (fun docs => Return docs)
    (fun index _ => Return (firstn 4 index))
    render_plainly
    (fun _ => Raise overloaded)
    (fun m => Return m).

Definition two_segments : list Document := [page "a"; page "b"].

End Doubles.

(** ** Reading a trace *)

(** The calls among the events, in order. *)
Fixpoint calls_of (events : list event) : list call :=
  match events with
  | [] => []
  | Call c :: rest => c :: calls_of rest
  | Print _ :: rest => calls_of rest
  end.

(** The place of a call in the script, from [load_dotenv()] to the output
    parser. *)
Definition call_rank (c : call) : nat :=
  match c with
  | Load_dotenv => 0
  | WebBaseLoader_init _ _ => 1
  | Loader_load => 2
  | TextSplitter_init _ _ => 3
  | Split_documents _ => 4
  | OpenAIEmbeddings_init => 5
  | Chroma_from_documents _ => 6
  | As_retriever => 7
  | ChatOpenAI_init _ => 8
  | Hub_pull _ => 9
  | Retriever_invoke _ => 10
  | Prompt_invoke _ => 11
  | Llm_invoke => 12
  | Parser_invoke => 13
  end%nat.

(** The arguments of a call as [main()] writes them. *)
Definition written_in_main (c : call) : Prop :=
  match c with
  | WebBaseLoader_init web_paths classes =>
      web_paths = URLS /\ classes = POST_CLASSES
  | TextSplitter_init chunk_size chunk_overlap =>
      chunk_size = DEFAULT_CHUNK_SIZE /\ chunk_overlap = DEFAULT_CHUNK_OVERLAP
  | Split_documents docs => docs <> []
  | ChatOpenAI_init model => model = DEFAULT_MODEL
  | Hub_pull name => name = DEFAULT_PROMPT_TEMPLATE
  | Retriever_invoke query => query = QUESTION
  | Prompt_invoke inputs => inputs !! "question" = Some QUESTION
  | _ => True
  end.

(** Truthiness of what [os.environ.get("OPENAI_API_KEY")] finds: the
    variable is set and is not the empty string. *)
Definition has_credential (env : gmap string string) : bool :=
  match env !! OPENAI_API_KEY with
  | Some key => negb (String.eqb key "")
  | None => false
  end.

(** The total length of the texts, for the size of a context. *)
Definition text_lengths (docs : list Document) : nat :=
  list_sum (map (fun doc => String.length (page_content doc)) docs).

(** ** More doubles: the credential is set, one service or another fails *)
Module Scenarios.
Import Doubles.

Definition with_key : gmap string string := {[ OPENAI_API_KEY := "sk-test" ]}.

Definition answers (value : string) : outcome string :=
  Return ("answer to " +:+ value).

(** No page can be reached. *)
Definition nothing_loads : Collaborators :=
  double with_key
    (fun _ => Raise refused)
    (fun _ docs => Return docs)
    (fun docs => Return docs)
    (fun index _ => Return (firstn 4 index))
    render_plainly answers
    (fun m => Return m).

(** The site answers with no page at all. *)
Definition empty_site : Collaborators :=
  {| X := nat;
     loader := list string;
     splitter := Z * Z;
     embeddings := unit;
     vectorstore := list Document;
     retriever := list Document;
     chat_model := string;
     prompt_template := string;
     prompt_value := string;
     message := string;
     load_dotenv := fun env n => (merge_dotenv with_key env, S n);
     WebBaseLoader := fun urls _ => served (Return urls);
     load := fun _ => served (Return []);
     RecursiveCharacterTextSplitter := fun c o => served (check_sizes c o);
     split_documents := fun _ docs => served (Return docs);
     OpenAIEmbeddings := fun _ => served (Return tt);
     from_documents := fun docs _ => served (Return docs);
     as_retriever := fun index => served (Return index);
     ChatOpenAI := fun model _ => served (Return model);
     hub_pull := fun name => served (Return name);
     retriever_invoke := fun index _ => served (Return (firstn 4 index));
     prompt_invoke := fun _ inputs => served (render_plainly inputs);
     llm_invoke := fun _ value => served (answers value);
     StrOutputParser_invoke := fun m => served (Return m) |}.

(** The pages load and split, the embedding service refuses the batch. *)
Definition index_fails : Collaborators :=
  double with_key
    (fun url => Return (page url))
    (fun _ docs => Return docs)
    (fun _ => Raise rate_limited)
    (fun index _ => Return (firstn 4 index))
    render_plainly answers
    (fun m => Return m).

(** The index holds nothing that matches: the retrieval comes back empty. *)
Definition nothing_retrieved : Collaborators :=
  double with_key
    (fun url => Return (page url))
    (fun _ docs => Return docs)
    (fun docs => Return docs)
    (fun _ _ => Return [])
    render_plainly answers
    (fun m => Return m).

(** The prompt cannot be pulled from the hub. *)
Definition hub_down : Collaborators :=
  {| X := nat;
     loader := list string;
     splitter := Z * Z;
     embeddings := unit;
     vectorstore := list Document;
     retriever := list Document;
     chat_model := string;
     prompt_template := string;
     prompt_value := string;
     message := string;
     load_dotenv := fun env n => (merge_dotenv with_key env, S n);
     WebBaseLoader := fun urls _ => served (Return urls);
     load := fun urls => served (load_each (fun url => Return (page url)) urls);
     RecursiveCharacterTextSplitter := fun c o => served (check_sizes c o);
     split_documents := fun _ docs => served (Return docs);
     OpenAIEmbeddings := fun _ => served (Return tt);
     from_documents := fun docs _ => served (Return docs);
     as_retriever := fun index => served (Return index);
     ChatOpenAI := fun model _ => served (Return model);
     hub_pull := fun _ => served (Raise (LibraryError "HTTPError" "hub unreachable"));
     retriever_invoke := fun index _ => served (Return (firstn 4 index));
     prompt_invoke := fun _ inputs => served (render_plainly inputs);
     llm_invoke := fun _ value => served (answers value);
     StrOutputParser_invoke := fun m => served (Return m) |}.

(** The user interrupts the download. *)
Definition interrupted : Collaborators :=
  double with_key
    (fun _ => Raise (Interrupt "KeyboardInterrupt"))
    (fun _ docs => Return docs)
    (fun docs => Return docs)
    (fun index _ => Return (firstn 4 index))
    render_plainly answers
    (fun m => Return m).

End Scenarios.

(** ** Running a computation *)

Ltac unfold_py :=
  unfold main, main_try, criar_rag_chain, rag_chain, criar_vectorstore,
    dividir_documentos, carregar_documentos, configurar_ambiente,
    run_load_dotenv, StrOutputParser, llm_runnable, prompt_runnable,
    retriever_runnable, RunnableParallel, RunnablePassthrough, pipe_function,
    pipe, invoke_service_env, invoke_service, environ_get, environ_set,
    print, try_except, bind, raise, ret, after in *.

Ltac tidy_trace := cbn; rewrite <- ?app_assoc; reflexivity.

(** ** Environment configuration *)

Section Configuration.

Context {L : Collaborators}.

(** C9 - When the credential OPENAI_API_KEY is missing from the environment
    that [configurar_ambiente] reads (the process environment after
    [load_dotenv] has merged the .env file), or is the empty string there,
    [configurar_ambiente] raises its [ValueError]; and [main] then ends
    having called nothing but [load_dotenv] and printed nothing but that
    error: no document is loaded, split or indexed and no query is made. *)
Theorem configurar_ambiente_missing_key (w : world (X L))
    (env' : gmap string string) (x' : X L) :
  load_dotenv L (environ w) (ext w) = (env', x') ->
  env' !! OPENAI_API_KEY = None \/ env' !! OPENAI_API_KEY = Some "" ->
  configurar_ambiente w
    = (Raise (ValueError missing_key_message),
       World env' x' (trace w ++ [Call Load_dotenv]))
  /\ main w
    = (Return tt,
       World env' x'
         (trace w ++ [Call Load_dotenv;
                      Print ("Erro durante a execução: " +:+ missing_key_message)])).
Proof.
  intros Hload Hkey.
  assert (Hconf : configurar_ambiente w
                  = (Raise (ValueError missing_key_message),
                     World env' x' (trace w ++ [Call Load_dotenv]))).
  { unfold_py. rewrite Hload. cbn.
    destruct Hkey as [-> | ->]; reflexivity. }
  split; [exact Hconf |].
  unfold main, main_try, try_except, bind at 1.
  rewrite Hconf. cbn. unfold print. tidy_trace.
Qed.

(** With a credential that is set and not empty the configuration returns,
    the variable written back as it was read. *)
Lemma configurar_ambiente_with_key (w : world (X L))
    (env' : gmap string string) (x' : X L) (key : string) :
  load_dotenv L (environ w) (ext w) = (env', x') ->
  env' !! OPENAI_API_KEY = Some key ->
  key <> "" ->
  configurar_ambiente w
  = (Return tt, World env' x' (trace w ++ [Call Load_dotenv])).
Proof.
  intros Hload Hkey Hne. unfold_py. rewrite Hload. cbn. rewrite Hkey.
  destruct (String.eqb_spec key ""); [contradiction |].
  cbn. now rewrite insert_id.
Qed.

End Configuration.

Lemma configurar_ambiente_missing_key_witness :
  configurar_ambiente (L := Doubles.all_well ∅) Doubles.start
    = (Raise (ValueError missing_key_message),
       World ∅ 1%nat [Call Load_dotenv])
  /\ main (L := Doubles.all_well ∅) Doubles.start
    = (Return tt,
       World ∅ 1%nat
         [Call Load_dotenv;
          Print ("Erro durante a execução: " +:+ missing_key_message)]).
Proof.
  apply (configurar_ambiente_missing_key (L := Doubles.all_well ∅)
           Doubles.start ∅ 1%nat).
  - reflexivity.
  - left. reflexivity.
Defined.

(** An empty credential in the process environment is not replaced by the
    one of the .env file, and is refused. *)
Example configurar_ambiente_empty_key :
  fst (configurar_ambiente
         (L := Doubles.all_well {[ OPENAI_API_KEY := "sk-file" ]})
         (World {[ OPENAI_API_KEY := "" ]} 0%nat []))
  = Raise (ValueError missing_key_message).
Proof. vm_compute. reflexivity. Qed.

(** ** Document loading *)

Section Loading.

Context {L : Collaborators}.

(** What [carregar_documentos] does, by the answers of the loader. *)
Lemma carregar_documentos_run (urls : list string) (w : world (X L)) :
  carregar_documentos urls w =
  let init := Call (WebBaseLoader_init urls POST_CLASSES) in
  match WebBaseLoader L urls POST_CLASSES (ext w) with
  | (Raise e, x1) =>
      if is_Exception e
      then (Return [], after w x1 [init; Print (load_error_line e)])
      else (Raise e, after w x1 [init])
  | (Return l, x1) =>
      match load L l x1 with
      | (Return docs, x2) => (Return docs, after w x2 [init; Call Loader_load])
      | (Raise e, x2) =>
          if is_Exception e
          then (Return [],
                after w x2 [init; Call Loader_load; Print (load_error_line e)])
          else (Raise e, after w x2 [init; Call Loader_load])
      end
  end.
Proof.
  unfold_py. cbn.
  destruct (WebBaseLoader L urls POST_CLASSES (ext w)) as [[l | e] x1]; cbn.
  - destruct (load L l x1) as [[docs | e] x2]; cbn;
      [| destruct (is_Exception e)]; tidy_trace.
  - destruct (is_Exception e); tidy_trace.
Qed.

(** C10 - [carregar_documentos] lets no exception of class [Exception]
    out: whatever it raises to its caller is not an [Exception]; and when
    the construction of the loader, or the loading and parsing itself,
    raises an [Exception], the call prints the error and returns the empty
    list for the whole batch, whatever had been loaded before. *)
Theorem carregar_documentos_catches (urls : list string) (w : world (X L)) :
  (forall e w', carregar_documentos urls w = (Raise e, w') ->
     is_Exception e = false)
  /\ (forall e x1,
        WebBaseLoader L urls POST_CLASSES (ext w) = (Raise e, x1) ->
        is_Exception e = true ->
        carregar_documentos urls w
        = (Return [],
           after w x1 [Call (WebBaseLoader_init urls POST_CLASSES);
                       Print (load_error_line e)]))
  /\ (forall l x1 e x2,
        WebBaseLoader L urls POST_CLASSES (ext w) = (Return l, x1) ->
        load L l x1 = (Raise e, x2) ->
        is_Exception e = true ->
        carregar_documentos urls w
        = (Return [],
           after w x2 [Call (WebBaseLoader_init urls POST_CLASSES);
                       Call Loader_load;
                       Print (load_error_line e)])).
Proof.
  rewrite carregar_documentos_run. cbn zeta.
  split; [| split].
  - intros e w'.
    destruct (WebBaseLoader L urls POST_CLASSES (ext w)) as [[l | e1] x1].
    + destruct (load L l x1) as [[docs | e2] x2]; [discriminate |].
      destruct (is_Exception e2) eqn:He2; [discriminate |].
      intros [= <- _]. exact He2.
    + destruct (is_Exception e1) eqn:He1; [discriminate |].
      intros [= <- _]. exact He1.
  - intros e x1 -> ->. reflexivity.
  - intros l x1 e x2 -> -> ->. reflexivity.
Qed.

(** C1, as amended - a failure while loading is not fatal to the caller,
    but it is not handled source by source either: as soon as the loader
    raises an [Exception], the error is printed and the call returns the
    empty list; the documents come back, all of them and in the loader's
    order, only when the loader returns without raising. *)
Theorem carregar_documentos_all_or_nothing (urls : list string)
    (w : world (X L)) (l : loader L) (x1 : X L) :
  WebBaseLoader L urls POST_CLASSES (ext w) = (Return l, x1) ->
  (forall docs x2,
     load L l x1 = (Return docs, x2) ->
     carregar_documentos urls w
     = (Return docs,
        after w x2 [Call (WebBaseLoader_init urls POST_CLASSES);
                    Call Loader_load]))
  /\ (forall e x2,
        load L l x1 = (Raise e, x2) ->
        is_Exception e = true ->
        carregar_documentos urls w
        = (Return [],
           after w x2 [Call (WebBaseLoader_init urls POST_CLASSES);
                       Call Loader_load;
                       Print (load_error_line e)])).
Proof.
  intros Hinit. rewrite carregar_documentos_run, Hinit. cbn zeta.
  split.
  - intros docs x2 ->. reflexivity.
  - intros e x2 -> ->. reflexivity.
Qed.

End Loading.

(** The loader of the doubles: one page that raises and the batch is lost;
    no page that raises and every page is there. *)
Lemma load_each_raises (fetch : string -> outcome Document)
    (urls : list string) (e : exn) :
  Doubles.load_each fetch urls = Raise e ->
  exists url, In url urls /\ fetch url = Raise e.
Proof.
  induction urls as [| url rest IH]; cbn; [discriminate |].
  destruct (fetch url) as [doc | e1] eqn:Hfetch.
  - destruct (Doubles.load_each fetch rest) as [docs | e2]; [discriminate |].
    intros [= ->]. destruct (IH eq_refl) as (u & Hin & Hu). eauto.
  - intros [= ->]. eauto.
Qed.

Lemma load_each_returns (fetch : string -> outcome Document)
    (urls : list string) (docs : list Document) :
  Doubles.load_each fetch urls = Return docs ->
  docs = Doubles.fetched fetch urls /\ length docs = length urls.
Proof.
  revert docs. induction urls as [| url rest IH]; cbn; intros docs.
  - intros [= <-]. auto.
  - destruct (fetch url) as [doc | e1]; [| discriminate].
    destruct (Doubles.load_each fetch rest) as [rest_docs | e2]; [| discriminate].
    intros [= <-]. destruct (IH rest_docs eq_refl) as [-> Hlen].
    cbn. auto.
Qed.

Lemma carregar_documentos_catches_witness :
  carregar_documentos (L := Doubles.one_down)
    [Doubles.up; Doubles.down] Doubles.start
  = (Return [],
     World ∅ 2%nat
       [Call (WebBaseLoader_init [Doubles.up; Doubles.down] POST_CLASSES);
        Call Loader_load;
        Print "Erro ao carregar documentos: connection refused"]).
Proof.
  apply (proj2 (proj2 (carregar_documentos_catches (L := Doubles.one_down)
                         [Doubles.up; Doubles.down] Doubles.start))
           [Doubles.up; Doubles.down] 1%nat Doubles.refused 2%nat);
    reflexivity.
Defined.

(** C1, as stated, fails: of two sources the first loads and the second is
    refused; the loaded one is the document a per-source policy would
    return, and the call returns none. *)
Lemma carregar_documentos_not_per_source :
  let urls := [Doubles.up; Doubles.down] in
  Doubles.fetch_but_down Doubles.up = Return (Doubles.page Doubles.up)
  /\ Doubles.fetch_but_down Doubles.down = Raise Doubles.refused
  /\ Doubles.fetched Doubles.fetch_but_down urls = [Doubles.page Doubles.up]
  /\ fst (carregar_documentos (L := Doubles.one_down) urls Doubles.start)
     = Return []
  /\ fst (carregar_documentos (L := Doubles.one_down) urls Doubles.start)
     <> Return (Doubles.fetched Doubles.fetch_but_down urls).
Proof.
  cbn zeta. repeat (split; [reflexivity |]).
  intros H. vm_compute in H. discriminate H.
Qed.

Lemma carregar_documentos_all_or_nothing_witness :
  carregar_documentos (L := Doubles.one_down) [Doubles.up] Doubles.start
  = (Return [Doubles.page Doubles.up],
     World ∅ 2%nat
       [Call (WebBaseLoader_init [Doubles.up] POST_CLASSES);
        Call Loader_load]).
Proof.
  apply (proj1 (carregar_documentos_all_or_nothing (L := Doubles.one_down)
                  [Doubles.up] Doubles.start [Doubles.up] 1%nat eq_refl)
           [Doubles.page Doubles.up] 2%nat).
  reflexivity.
Defined.

(** ** Splitting *)

Section Splitting.

Context {L : Collaborators}.

(** C2, as amended - [dividir_documentos] compares nothing itself: it
    fails when, and only as, the text splitter it delegates to fails.  If
    the splitter's constructor rejects the sizes, that exception reaches
    the caller before any document is split; if it accepts them, the call
    ends as [split_documents] ends, with its segments or its exception. *)
Theorem dividir_documentos_delegates (documentos : list Document)
    (tamanho_chunk sobreposicao : Z) (w : world (X L)) :
  (forall e x1,
     RecursiveCharacterTextSplitter L tamanho_chunk sobreposicao (ext w)
     = (Raise e, x1) ->
     dividir_documentos documentos tamanho_chunk sobreposicao w
     = (Raise e,
        after w x1 [Call (TextSplitter_init tamanho_chunk sobreposicao)]))
  /\ (forall text_splitter x1 r x2,
        RecursiveCharacterTextSplitter L tamanho_chunk sobreposicao (ext w)
        = (Return text_splitter, x1) ->
        split_documents L text_splitter documentos x1 = (r, x2) ->
        dividir_documentos documentos tamanho_chunk sobreposicao w
        = (r,
           after w x2 [Call (TextSplitter_init tamanho_chunk sobreposicao);
                       Call (Split_documents documentos)])).
Proof.
  split.
  - intros e x1 Hinit. unfold_py. cbn. rewrite Hinit. reflexivity.
  - intros text_splitter x1 r x2 Hinit Hsplit. unfold_py. cbn.
    rewrite Hinit. cbn. rewrite Hsplit.
    destruct r; tidy_trace.
Qed.

End Splitting.

(** The constructor check of the double is strict: a larger overlap is
    refused, an equal one is not. *)
Lemma check_sizes_larger_overlap (c o : Z) :
  o > c -> exists msg, Doubles.check_sizes c o = Raise (ValueError msg).
Proof.
  intros Hlt. unfold Doubles.check_sizes.
  destruct (c <=? 0); [eauto |].
  destruct (o <? 0); [eauto |].
  destruct (Z.gtb_spec o c); [eauto | lia].
Qed.

Lemma check_sizes_equal_overlap (c : Z) :
  0 < c -> Doubles.check_sizes c c = Return (c, c).
Proof.
  intros Hpos. unfold Doubles.check_sizes.
  destruct (Z.leb_spec c 0); [lia |].
  destruct (Z.ltb_spec c 0); [lia |].
  destruct (Z.gtb_spec c c); [lia | reflexivity].
Qed.

Lemma dividir_documentos_delegates_witness :
  dividir_documentos (L := Doubles.all_well ∅) [Doubles.page "p"] 1000 1001
    Doubles.start
  = (Raise (ValueError "Got a larger chunk overlap than chunk size"),
     World ∅ 1%nat [Call (TextSplitter_init 1000 1001)]).
Proof.
  apply (proj1 (dividir_documentos_delegates (L := Doubles.all_well ∅)
                  [Doubles.page "p"] 1000 1001 Doubles.start)).
  reflexivity.
Defined.

(** C2, as stated, fails: an overlap equal to the chunk size is not
    refused, and the segments are returned. *)
Lemma dividir_documentos_equal_sizes_accepted :
  1000 >= 1000
  /\ dividir_documentos (L := Doubles.all_well ∅) [Doubles.page "p"] 1000 1000
       Doubles.start
     = (Return [Doubles.page "p"],
        World ∅ 2%nat
          [Call (TextSplitter_init 1000 1000);
           Call (Split_documents [Doubles.page "p"])]).
Proof. split; [lia | reflexivity]. Qed.

(** ** Building the index *)

Section Indexing.

Context {L : Collaborators}.

(** C4 - when the embedding service fails while the index is built, be it
    as the client is made or as the segments are embedded and stored,
    [criar_vectorstore] raises that very exception to its caller and
    returns no index; each service was called once, no call is repeated. *)
Theorem criar_vectorstore_propagates (documentos : list Document)
    (w : world (X L)) :
  (forall e x1,
     OpenAIEmbeddings L (environ w) (ext w) = (Raise e, x1) ->
     criar_vectorstore documentos w
     = (Raise e,
        after w x1 ([Call OpenAIEmbeddings_init] ++ build_failure_log e)))
  /\ (forall embedding x1 e x2,
        OpenAIEmbeddings L (environ w) (ext w) = (Return embedding, x1) ->
        from_documents L documentos embedding x1 = (Raise e, x2) ->
        criar_vectorstore documentos w
        = (Raise e,
           after w x2 ([Call OpenAIEmbeddings_init;
                        Call (Chroma_from_documents documentos)]
                       ++ build_failure_log e))).
Proof.
  split.
  - intros e x1 Hinit. unfold_py. cbn. rewrite Hinit. cbn.
    unfold build_failure_log.
    destruct (is_Exception e); tidy_trace.
  - intros embedding x1 e x2 Hinit Hbuild. unfold_py. cbn.
    rewrite Hinit. cbn. rewrite Hbuild. cbn.
    unfold build_failure_log.
    destruct (is_Exception e); tidy_trace.
Qed.

(** A build that succeeds returns the index of [from_documents]. *)
Lemma criar_vectorstore_returns (documentos : list Document)
    (w : world (X L)) embedding x1 index x2 :
  OpenAIEmbeddings L (environ w) (ext w) = (Return embedding, x1) ->
  from_documents L documentos embedding x1 = (Return index, x2) ->
  criar_vectorstore documentos w
  = (Return index,
     after w x2 [Call OpenAIEmbeddings_init;
                 Call (Chroma_from_documents documentos)]).
Proof.
  intros Hinit Hbuild. unfold_py. cbn. rewrite Hinit. cbn. rewrite Hbuild.
  tidy_trace.
Qed.

End Indexing.

Lemma criar_vectorstore_propagates_witness :
  criar_vectorstore (L := Doubles.embedding_down)
    [Doubles.page "p"] Doubles.start
  = (Raise Doubles.rate_limited,
     World ∅ 2%nat
       [Call OpenAIEmbeddings_init;
        Call (Chroma_from_documents [Doubles.page "p"]);
        Print "Erro ao criar vectorstore: rate limit reached"]).
Proof.
  apply (proj2 (criar_vectorstore_propagates (L := Doubles.embedding_down)
                  [Doubles.page "p"] Doubles.start)
           tt 1%nat Doubles.rate_limited 2%nat);
    reflexivity.
Defined.

(** ** The context text *)

Lemma append_assoc (a b c : string) : (a +:+ b) +:+ c = a +:+ (b +:+ c).
Proof.
  induction a as [| ch a IH]; [reflexivity |].
  change (String ch ((a +:+ b) +:+ c) = String ch (a +:+ (b +:+ c))).
  now f_equal.
Qed.

(** The buffer of [join_from] ends as what it held followed, for each item
    in order, by the separator and the item. *)
Lemma join_from_context_text (texts : list string) :
  forall buffer text,
    join_from BLANK_LINE (buffer +:+ text) texts
    = buffer +:+ context_text (text :: texts).
Proof.
  induction texts as [| next texts IH]; intros buffer text.
  - reflexivity.
  - cbn [join_from].
    replace ((buffer +:+ text) +:+ BLANK_LINE +:+ next)
      with ((buffer +:+ text +:+ BLANK_LINE) +:+ next)
      by (now rewrite !append_assoc).
    rewrite IH.
    change (context_text (text :: next :: texts))
      with (text +:+ BLANK_LINE +:+ context_text (next :: texts)).
    now rewrite !append_assoc.
Qed.

(** The first branch of the chain: the [context] entry of the dict is the
    formatted retrieval. *)
Lemma prompt_inputs_context (docs : list Document) (question : string) :
  prompt_inputs docs question !! "context" = Some (format_docs docs).
Proof.
  unfold prompt_inputs.
  rewrite lookup_insert_ne by discriminate.
  apply lookup_insert_eq.
Qed.

(** C5 - the context text [format_docs] produces is the texts of the
    segments, in the order they were retrieved, with a blank line (two line
    feeds) between each two neighbours; and that text is what the chain
    puts under [context] in the dict it hands to the prompt. *)
Theorem format_docs_context_text (docs : list Document) (question : string) :
  format_docs docs = context_text (map page_content docs)
  /\ prompt_inputs docs question !! "context"
     = Some (context_text (map page_content docs)).
Proof.
  assert (Hjoin : format_docs docs = context_text (map page_content docs)).
  { unfold format_docs, str_join.
    destruct (map page_content docs) as [| text texts]; [reflexivity |].
    exact (join_from_context_text texts "" text). }
  split; [exact Hjoin |].
  rewrite <- Hjoin. apply prompt_inputs_context.
Qed.

Example format_docs_three :
  format_docs [mkDocument "a" []; mkDocument "b" []; mkDocument "c" []]
  = String "a" (String "010" (String "010" (String "b"
      (String "010" (String "010" (String "c" EmptyString)))))).
Proof. reflexivity. Qed.

(** ** The synthesis chain *)

Section Chain.

Context {L : Collaborators}.

(** One run of the chain, stage by stage. *)
Lemma rag_chain_run (r : retriever L) (prompt : prompt_template L)
    (llm : chat_model L) (question : string) (w : world (X L)) :
  rag_chain r prompt llm question w =
  let retrieval := Call (Retriever_invoke question) in
  match retriever_invoke L r question (ext w) with
  | (Raise e, x1) => (Raise e, after w x1 [retrieval])
  | (Return docs, x1) =>
      let rendering := Call (Prompt_invoke (prompt_inputs docs question)) in
      match prompt_invoke L prompt (prompt_inputs docs question) x1 with
      | (Raise e, x2) => (Raise e, after w x2 [retrieval; rendering])
      | (Return value, x2) =>
          match llm_invoke L llm value x2 with
          | (Raise e, x3) =>
              (Raise e, after w x3 [retrieval; rendering; Call Llm_invoke])
          | (Return m, x3) =>
              match StrOutputParser_invoke L m x3 with
              | (result, x4) =>
                  (result,
                   after w x4
                     [retrieval; rendering; Call Llm_invoke; Call Parser_invoke])
              end
          end
      end
  end.
Proof.
  unfold prompt_inputs. unfold_py. cbn.
  destruct (retriever_invoke L r question (ext w)) as [[docs | e] x1]; cbn;
    [| reflexivity].
  destruct (prompt_invoke L prompt _ x1) as [[value | e] x2]; [| tidy_trace].
  cbn.
  destruct (llm_invoke L llm value x2) as [[m | e] x3]; [| tidy_trace].
  cbn.
  destruct (StrOutputParser_invoke L m x3) as [[answer | e] x4]; tidy_trace.
Qed.

(** C3 - a failure of any stage of the chain (retrieval, prompt rendering,
    generation, decoding) ends the run there: the chain raises that
    exception to its caller, the later stages are not called, and an answer
    is returned only when all four stages have returned, the answer being
    what the decoder returned. *)
Theorem rag_chain_aborts (r : retriever L) (prompt : prompt_template L)
    (llm : chat_model L) (question : string) (w : world (X L)) :
  (forall e x1,
     retriever_invoke L r question (ext w) = (Raise e, x1) ->
     rag_chain r prompt llm question w
     = (Raise e, after w x1 [Call (Retriever_invoke question)]))
  /\ (forall docs x1 e x2,
        retriever_invoke L r question (ext w) = (Return docs, x1) ->
        prompt_invoke L prompt (prompt_inputs docs question) x1 = (Raise e, x2) ->
        rag_chain r prompt llm question w
        = (Raise e,
           after w x2 [Call (Retriever_invoke question);
                       Call (Prompt_invoke (prompt_inputs docs question))]))
  /\ (forall docs x1 value x2 e x3,
        retriever_invoke L r question (ext w) = (Return docs, x1) ->
        prompt_invoke L prompt (prompt_inputs docs question) x1
        = (Return value, x2) ->
        llm_invoke L llm value x2 = (Raise e, x3) ->
        rag_chain r prompt llm question w
        = (Raise e,
           after w x3 [Call (Retriever_invoke question);
                       Call (Prompt_invoke (prompt_inputs docs question));
                       Call Llm_invoke]))
  /\ (forall docs x1 value x2 m x3 e x4,
        retriever_invoke L r question (ext w) = (Return docs, x1) ->
        prompt_invoke L prompt (prompt_inputs docs question) x1
        = (Return value, x2) ->
        llm_invoke L llm value x2 = (Return m, x3) ->
        StrOutputParser_invoke L m x3 = (Raise e, x4) ->
        rag_chain r prompt llm question w
        = (Raise e,
           after w x4 [Call (Retriever_invoke question);
                       Call (Prompt_invoke (prompt_inputs docs question));
                       Call Llm_invoke;
                       Call Parser_invoke]))
  /\ (forall answer w',
        rag_chain r prompt llm question w = (Return answer, w') ->
        exists docs x1 value x2 m x3 x4,
          retriever_invoke L r question (ext w) = (Return docs, x1)
          /\ prompt_invoke L prompt (prompt_inputs docs question) x1
             = (Return value, x2)
          /\ llm_invoke L llm value x2 = (Return m, x3)
          /\ StrOutputParser_invoke L m x3 = (Return answer, x4)).
Proof.
  rewrite rag_chain_run. cbn zeta.
  repeat split.
  - intros e x1 ->. reflexivity.
  - intros docs x1 e x2 -> ->. reflexivity.
  - intros docs x1 value x2 e x3 -> -> ->. reflexivity.
  - intros docs x1 value x2 m x3 e x4 -> -> -> ->. reflexivity.
  - intros answer w'.
    destruct (retriever_invoke L r question (ext w)) as [[docs | e] x1];
      [| discriminate].
    destruct (prompt_invoke L prompt _ x1) as [[value | e] x2] eqn:Hprompt;
      [| discriminate].
    destruct (llm_invoke L llm value x2) as [[m | e] x3] eqn:Hllm;
      [| discriminate].
    destruct (StrOutputParser_invoke L m x3) as [[decoded | e] x4] eqn:Hparse;
      [| discriminate].
    intros [= <- _]. exists docs, x1, value, x2, m, x3, x4. auto.
Qed.

(** C8 - the second branch of the chain passes the question through
    untouched: once the segments are retrieved, the prompt is invoked,
    right after the retrieval, with a dict whose [question] entry is the
    string the chain was invoked with. *)
Theorem rag_chain_question_passthrough (r : retriever L)
    (prompt : prompt_template L) (llm : chat_model L) (question : string)
    (w : world (X L)) (docs : list Document) (x1 : X L) :
  retriever_invoke L r question (ext w) = (Return docs, x1) ->
  exists inputs later,
    trace (snd (rag_chain r prompt llm question w))
    = (trace w ++ Call (Retriever_invoke question)
                  :: Call (Prompt_invoke inputs) :: later)%list
    /\ inputs !! "question" = Some question
    /\ RunnablePassthrough (L := L) question w = (Return question, w).
Proof.
  intros Hretrieve.
  exists (prompt_inputs docs question).
  rewrite rag_chain_run, Hretrieve. cbn zeta.
  destruct (prompt_invoke L prompt _ x1) as [[value | e] x2].
  - destruct (llm_invoke L llm value x2) as [[m | e] x3].
    + destruct (StrOutputParser_invoke L m x3) as [result x4].
      exists [Call Llm_invoke; Call Parser_invoke].
      split; [reflexivity |]. split; [apply lookup_insert_eq | reflexivity].
    + exists [Call Llm_invoke].
      split; [reflexivity |]. split; [apply lookup_insert_eq | reflexivity].
  - exists [].
    split; [reflexivity |]. split; [apply lookup_insert_eq | reflexivity].
Qed.

(** [main] reports what its body raises: the error line is printed, and
    nothing after it. *)
Lemma main_reports_failure (w w' : world (X L)) (e : exn) :
  main_try w = (Raise e, w') ->
  is_Exception e = true ->
  main w = (Return tt, after w' (ext w') [Print (main_error_line e)]).
Proof.
  intros Htry He. unfold main, try_except. rewrite Htry, He. reflexivity.
Qed.

End Chain.

Lemma rag_chain_aborts_witness :
  rag_chain (L := Doubles.generation_down)
    Doubles.two_segments "rlm/rag-prompt" "gpt-4o" "q" Doubles.start
  = (Raise Doubles.overloaded,
     World ∅ 3%nat
       [Call (Retriever_invoke "q");
        Call (Prompt_invoke (prompt_inputs Doubles.two_segments "q"));
        Call Llm_invoke]).
Proof.
  eapply (proj1 (proj2 (proj2 (rag_chain_aborts
                                 (L := Doubles.generation_down)
                                 Doubles.two_segments "rlm/rag-prompt" "gpt-4o"
                                 "q" Doubles.start))));
    reflexivity.
Defined.

Lemma rag_chain_question_passthrough_witness :
  exists inputs later,
    trace (snd (rag_chain (L := Doubles.all_well ∅)
                  Doubles.two_segments "rlm/rag-prompt" "gpt-4o" "q"
                  Doubles.start))
    = ([] ++ Call (Retriever_invoke "q")
             :: Call (Prompt_invoke inputs) :: later)%list
    /\ inputs !! "question" = Some "q"
    /\ RunnablePassthrough (L := Doubles.all_well ∅) "q" Doubles.start
       = (Return "q", Doubles.start).
Proof.
  apply (rag_chain_question_passthrough (L := Doubles.all_well ∅)
           Doubles.two_segments "rlm/rag-prompt" "gpt-4o" "q" Doubles.start
           Doubles.two_segments 1%nat).
  reflexivity.
Defined.

(** ** The whole script on doubles that all answer *)

Example main_all_well :
  main (L := Doubles.all_well {[ OPENAI_API_KEY := "sk-test" ]}) Doubles.start
  = (Return tt,
     World {[ OPENAI_API_KEY := "sk-test" ]} 14%nat
       [Call Load_dotenv;
        Call (WebBaseLoader_init URLS POST_CLASSES);
        Call Loader_load;
        Call (TextSplitter_init 1000 200);
        Call (Split_documents (map Doubles.page URLS));
        Call OpenAIEmbeddings_init;
        Call (Chroma_from_documents (map Doubles.page URLS));
        Call As_retriever;
        Call (ChatOpenAI_init "gpt-4o");
        Call (Hub_pull "rlm/rag-prompt");
        Call (Retriever_invoke QUESTION);
        Call (Prompt_invoke (prompt_inputs (map Doubles.page URLS) QUESTION));
        Call Llm_invoke;
        Call Parser_invoke;
        Print ("answer to " +:+ format_docs (map Doubles.page URLS) +:+ " ? "
               +:+ QUESTION)]).
Proof. vm_compute. reflexivity. Qed.

(** When no document comes back, [main] says so and stops before the
    splitter, the index and the chain. *)
Example main_nothing_loaded :
  trace (snd (main (L := Doubles.double {[ OPENAI_API_KEY := "sk-test" ]}
                          (fun _ => Raise Doubles.refused)
                          (fun _ docs => Return docs)
                          (fun docs => Return docs)
                          (fun index _ => Return index)
                          Doubles.render_plainly
                          (fun value => Return value)
                          (fun m => Return m))
                Doubles.start))
  = [Call Load_dotenv;
     Call (WebBaseLoader_init URLS POST_CLASSES);
     Call Loader_load;
     Print "Erro ao carregar documentos: connection refused";
     Print no_documents_message].
Proof. vm_compute. reflexivity. Qed.

(** ** More on the configuration *)

Section ConfigurationOutcome.

Context {L : Collaborators}.

(** X1 - [configurar_ambiente] in full: it calls [load_dotenv] once and
    leaves the environment exactly as [load_dotenv] made it (writing the
    key back changes nothing); it returns when the credential is set and
    not empty there, and otherwise raises its [ValueError], the only
    exception it raises. *)
Theorem configurar_ambiente_outcome (w : world (X L)) :
  configurar_ambiente w
  = (if has_credential (fst (load_dotenv L (environ w) (ext w)))
     then Return tt
     else Raise (ValueError missing_key_message),
     World (fst (load_dotenv L (environ w) (ext w)))
       (snd (load_dotenv L (environ w) (ext w)))
       (trace w ++ [Call Load_dotenv])).
Proof.
  unfold_py. unfold has_credential.
  destruct (load_dotenv L (environ w) (ext w)) as [env' x']. cbn.
  destruct (env' !! OPENAI_API_KEY) as [key |] eqn:Hkey; [| reflexivity].
  destruct (String.eqb key ""); cbn; [reflexivity |].
  now rewrite insert_id.
Qed.

End ConfigurationOutcome.

(** ** More on loading *)

Section LoadingOutcome.

Context {L : Collaborators}.

(** X2 - a list that is not empty can only come from a load that went
    through: when [carregar_documentos] returns at least one document, the
    loader was built, [load()] returned that very list, and nothing was
    printed.  So the emptiness test of [main] misses no failure. *)
Theorem carregar_documentos_nonempty (urls : list string) (w w' : world (X L))
    (doc : Document) (docs : list Document) :
  carregar_documentos urls w = (Return (doc :: docs), w') ->
  exists l x1 x2,
    WebBaseLoader L urls POST_CLASSES (ext w) = (Return l, x1)
    /\ load L l x1 = (Return (doc :: docs), x2)
    /\ w' = after w x2 [Call (WebBaseLoader_init urls POST_CLASSES);
                        Call Loader_load].
Proof.
  rewrite carregar_documentos_run. cbn zeta.
  destruct (WebBaseLoader L urls POST_CLASSES (ext w)) as [[l | e] x1].
  - destruct (load L l x1) as [[loaded | e] x2] eqn:Hload.
    + intros [= -> <-]. exists l, x1, x2. auto.
    + destruct (is_Exception e); discriminate.
  - destruct (is_Exception e); discriminate.
Qed.

End LoadingOutcome.

Lemma carregar_documentos_nonempty_witness :
  exists l x1 x2,
    WebBaseLoader Doubles.one_down [Doubles.up] POST_CLASSES 0%nat
    = (Return l, x1)
    /\ load Doubles.one_down l x1 = (Return [Doubles.page Doubles.up], x2)
    /\ World ∅ 2%nat
         [Call (WebBaseLoader_init [Doubles.up] POST_CLASSES); Call Loader_load]
       = after Doubles.start x2
           [Call (WebBaseLoader_init [Doubles.up] POST_CLASSES);
            Call Loader_load].
Proof.
  apply (carregar_documentos_nonempty (L := Doubles.one_down)
           [Doubles.up] Doubles.start
           (World ∅ 2%nat
              [Call (WebBaseLoader_init [Doubles.up] POST_CLASSES);
               Call Loader_load])
           (Doubles.page Doubles.up) []).
  reflexivity.
Defined.

(** ** More on the index *)

Section IndexingOutcome.

Context {L : Collaborators}.

(** X3 - [criar_vectorstore] returns an index exactly when the embedding
    client is made and [from_documents] returns that index; nothing is
    printed then, and the two services were called once each. *)
Theorem criar_vectorstore_returns_iff (documentos : list Document)
    (w w' : world (X L)) (index : vectorstore L) :
  criar_vectorstore documentos w = (Return index, w')
  <-> exists embedding x1 x2,
        OpenAIEmbeddings L (environ w) (ext w) = (Return embedding, x1)
        /\ from_documents L documentos embedding x1 = (Return index, x2)
        /\ w' = after w x2 [Call OpenAIEmbeddings_init;
                            Call (Chroma_from_documents documentos)].
Proof.
  split.
  - unfold_py. cbn.
    destruct (OpenAIEmbeddings L (environ w) (ext w)) as [[embedding | e] x1];
      cbn.
    + destruct (from_documents L documentos embedding x1)
        as [[built | e] x2] eqn:Hbuild; cbn.
      * intros [= -> <-]. exists embedding, x1, x2.
        rewrite <- app_assoc. auto.
      * destruct (is_Exception e); discriminate.
    + destruct (is_Exception e); discriminate.
  - intros (embedding & x1 & x2 & Hinit & Hbuild & ->).
    now apply criar_vectorstore_returns with (embedding := embedding) (x1 := x1).
Qed.

End IndexingOutcome.

(** ** Making the chain *)

Section ChainCreation.

Context {L : Collaborators}.

(** X4 - [criar_rag_chain] asks for the chat model first, with the model
    name it was given, and then pulls the prompt [rlm/rag-prompt]; it has
    no handler, so the exception of either call reaches the caller, and a
    model that cannot be made means the prompt is not pulled.  Making the
    chain invokes none of its stages: no retrieval, no generation. *)
Theorem criar_rag_chain_outcome (r : retriever L) (modelo : string)
    (w : world (X L)) :
  (forall e x1,
     ChatOpenAI L modelo (environ w) (ext w) = (Raise e, x1) ->
     criar_rag_chain r modelo w
     = (Raise e, after w x1 [Call (ChatOpenAI_init modelo)]))
  /\ (forall llm x1 e x2,
        ChatOpenAI L modelo (environ w) (ext w) = (Return llm, x1) ->
        hub_pull L DEFAULT_PROMPT_TEMPLATE x1 = (Raise e, x2) ->
        criar_rag_chain r modelo w
        = (Raise e,
           after w x2 [Call (ChatOpenAI_init modelo);
                       Call (Hub_pull "rlm/rag-prompt")]))
  /\ (forall llm x1 prompt x2,
        ChatOpenAI L modelo (environ w) (ext w) = (Return llm, x1) ->
        hub_pull L DEFAULT_PROMPT_TEMPLATE x1 = (Return prompt, x2) ->
        criar_rag_chain r modelo w
        = (Return (rag_chain r prompt llm),
           after w x2 [Call (ChatOpenAI_init modelo);
                       Call (Hub_pull "rlm/rag-prompt")])).
Proof.
  repeat split.
  - intros e x1 Hllm. unfold_py. cbn. rewrite Hllm. reflexivity.
  - intros llm x1 e x2 Hllm Hhub. unfold_py. cbn. rewrite Hllm. cbn.
    rewrite Hhub. tidy_trace.
  - intros llm x1 prompt x2 Hllm Hhub. unfold_py. cbn. rewrite Hllm. cbn.
    rewrite Hhub. tidy_trace.
Qed.

End ChainCreation.

Lemma criar_rag_chain_outcome_witness :
  criar_rag_chain (L := Scenarios.hub_down) Doubles.two_segments "gpt-4o"
    Doubles.start
  = (Raise (LibraryError "HTTPError" "hub unreachable"),
     World ∅ 2%nat [Call (ChatOpenAI_init "gpt-4o");
                    Call (Hub_pull "rlm/rag-prompt")]).
Proof.
  eapply (proj1 (proj2 (criar_rag_chain_outcome (L := Scenarios.hub_down)
                          Doubles.two_segments "gpt-4o" Doubles.start)));
    reflexivity.
Defined.

(** ** More on the chain *)

Section ChainOutcome.

Context {L : Collaborators}.

(** X5 - when the four stages return, the chain returns what the decoder
    made of the model's message, the model having been given the prompt
    rendered from the retrieved segments and the question; each stage was
    invoked once, in that order. *)
Theorem rag_chain_answers (r : retriever L) (prompt : prompt_template L)
    (llm : chat_model L) (question : string) (w : world (X L))
    docs x1 value x2 m x3 answer x4 :
  retriever_invoke L r question (ext w) = (Return docs, x1) ->
  prompt_invoke L prompt (prompt_inputs docs question) x1 = (Return value, x2) ->
  llm_invoke L llm value x2 = (Return m, x3) ->
  StrOutputParser_invoke L m x3 = (Return answer, x4) ->
  rag_chain r prompt llm question w
  = (Return answer,
     after w x4 [Call (Retriever_invoke question);
                 Call (Prompt_invoke (prompt_inputs docs question));
                 Call Llm_invoke;
                 Call Parser_invoke]).
Proof.
  intros Hretrieve Hprompt Hllm Hparse.
  rewrite rag_chain_run, Hretrieve. cbn zeta.
  rewrite Hprompt, Hllm, Hparse. reflexivity.
Qed.

(** X6 - an empty retrieval does not stop the chain: the prompt is still
    invoked, with the empty string as its context and the question as it
    came, and the run goes on to the model as with any other context. *)
Theorem rag_chain_empty_retrieval (r : retriever L)
    (prompt : prompt_template L) (llm : chat_model L) (question : string)
    (w : world (X L)) (x1 : X L) :
  retriever_invoke L r question (ext w) = (Return [], x1) ->
  let inputs : gmap string string :=
    <["question" := question]> (<["context" := ""]> ∅) in
  (exists later,
     trace (snd (rag_chain r prompt llm question w))
     = (trace w ++ Call (Retriever_invoke question)
                   :: Call (Prompt_invoke inputs) :: later)%list)
  /\ (forall value x2 m x3 answer x4,
        prompt_invoke L prompt inputs x1 = (Return value, x2) ->
        llm_invoke L llm value x2 = (Return m, x3) ->
        StrOutputParser_invoke L m x3 = (Return answer, x4) ->
        fst (rag_chain r prompt llm question w) = Return answer).
Proof.
  intros Hretrieve inputs.
  rewrite rag_chain_run, Hretrieve. cbn zeta.
  change (prompt_inputs [] question) with inputs.
  split.
  - destruct (prompt_invoke L prompt inputs x1) as [[value | e] x2].
    + destruct (llm_invoke L llm value x2) as [[m | e] x3].
      * destruct (StrOutputParser_invoke L m x3) as [result x4].
        exists [Call Llm_invoke; Call Parser_invoke]. reflexivity.
      * exists [Call Llm_invoke]. reflexivity.
    + exists []. reflexivity.
  - intros value x2 m x3 answer x4 -> -> ->. reflexivity.
Qed.

End ChainOutcome.

Lemma rag_chain_answers_witness :
  rag_chain (L := Doubles.all_well ∅)
    Doubles.two_segments "rlm/rag-prompt" "gpt-4o" "q" Doubles.start
  = (Return ("answer to " +:+ format_docs Doubles.two_segments +:+ " ? q"),
     World ∅ 4%nat
       [Call (Retriever_invoke "q");
        Call (Prompt_invoke (prompt_inputs Doubles.two_segments "q"));
        Call Llm_invoke;
        Call Parser_invoke]).
Proof.
  eapply (rag_chain_answers (L := Doubles.all_well ∅)
            Doubles.two_segments "rlm/rag-prompt" "gpt-4o" "q" Doubles.start);
    reflexivity.
Defined.

Lemma rag_chain_empty_retrieval_witness :
  fst (rag_chain (L := Scenarios.nothing_retrieved)
         Doubles.two_segments "rlm/rag-prompt" "gpt-4o" "q" Doubles.start)
  = Return "answer to  ? q".
Proof.
  eapply (proj2 (rag_chain_empty_retrieval (L := Scenarios.nothing_retrieved)
                   Doubles.two_segments "rlm/rag-prompt" "gpt-4o" "q"
                   Doubles.start 1%nat eq_refl));
    reflexivity.
Defined.

(** ** More on the context text *)

Lemma length_append (a b : string) :
  String.length (a +:+ b) = (String.length a + String.length b)%nat.
Proof.
  induction a as [| ch a IH]; [reflexivity |].
  change (S (String.length (a +:+ b))
          = S (String.length a + String.length b)%nat).
  now f_equal.
Qed.

(** With a next document, the text of the first one is followed by the
    blank line and the rest. *)
Lemma format_docs_cons (doc next : Document) (docs : list Document) :
  format_docs (doc :: next :: docs)
  = page_content doc +:+ BLANK_LINE +:+ format_docs (next :: docs).
Proof.
  pose proof (join_from_context_text
                (page_content next :: map page_content docs)
                "" (page_content doc)) as Hall.
  pose proof (join_from_context_text (map page_content docs)
                "" (page_content next)) as Hrest.
  change ("" +:+ page_content doc) with (page_content doc) in Hall.
  change ("" +:+ page_content next) with (page_content next) in Hrest.
  unfold format_docs, str_join. cbn [map].
  rewrite Hall, Hrest. reflexivity.
Qed.

(** X7 - formatting two batches of segments one after the other gives the
    two context texts with a blank line between them, when neither batch
    is empty; an empty batch adds nothing, not even the blank line. *)
Theorem format_docs_app (docs1 docs2 : list Document) :
  (docs1 <> [] -> docs2 <> [] ->
   format_docs (docs1 ++ docs2)
   = format_docs docs1 +:+ BLANK_LINE +:+ format_docs docs2)
  /\ format_docs ([] ++ docs2) = format_docs docs2
  /\ format_docs (docs1 ++ []) = format_docs docs1.
Proof.
  split; [| split; [reflexivity | now rewrite app_nil_r]].
  intros Hne1 Hne2.
  destruct docs2 as [| doc2 docs2]; [contradiction |]. clear Hne2.
  induction docs1 as [| doc1 docs1 IH]; [contradiction |]. clear Hne1.
  destruct docs1 as [| next docs1].
  - cbn [app]. now rewrite format_docs_cons.
  - change ((doc1 :: next :: docs1) ++ doc2 :: docs2)%list
      with (doc1 :: next :: (docs1 ++ doc2 :: docs2))%list.
    rewrite !format_docs_cons.
    change (next :: docs1 ++ doc2 :: docs2)%list
      with ((next :: docs1) ++ doc2 :: docs2)%list.
    rewrite IH by discriminate.
    now rewrite !append_assoc.
Qed.

(** X8 - the context text is as long as the texts together plus two
    characters for each gap between neighbours; no segments, no text. *)
Theorem format_docs_length (docs : list Document) :
  String.length (format_docs docs)
  = (text_lengths docs + 2 * pred (length docs))%nat.
Proof.
  induction docs as [| doc docs IH]; [reflexivity |].
  destruct docs as [| next docs].
  - unfold text_lengths. cbn. lia.
  - rewrite format_docs_cons, !length_append, IH.
    unfold text_lengths. cbn. lia.
Qed.

Lemma format_docs_app_witness :
  format_docs ([Doubles.page "a"] ++ [Doubles.page "b"])
  = format_docs [Doubles.page "a"] +:+ BLANK_LINE
    +:+ format_docs [Doubles.page "b"].
Proof.
  apply (proj1 (format_docs_app [Doubles.page "a"] [Doubles.page "b"]));
    discriminate.
Defined.

(** ** The script as a whole *)

Section Script.

Context {L : Collaborators}.

Ltac case_outcome t := destruct t as [[? | ?] ?] eqn:?.

(** The next answer of the outside the run depends on. *)
Ltac case_service :=
  match goal with
  | |- context [load_dotenv L ?env ?x] =>
      destruct (load_dotenv L env x) as [? ?] eqn:?
  | |- context [?env !! OPENAI_API_KEY] =>
      destruct (env !! OPENAI_API_KEY) eqn:?
  | |- context [String.eqb ?key ""] => destruct (String.eqb key "") eqn:?
  | |- context [is_Exception ?e] => destruct (is_Exception e) eqn:?
  | |- context [WebBaseLoader L ?a ?b ?x] => case_outcome (WebBaseLoader L a b x)
  | |- context [load L ?a ?x] => case_outcome (load L a x)
  | |- context [match ?l with [] => _ | _ :: _ => _ end] =>
      is_var l; destruct l eqn:?
  | |- context [RecursiveCharacterTextSplitter L ?a ?b ?x] =>
      case_outcome (RecursiveCharacterTextSplitter L a b x)
  | |- context [split_documents L ?a ?b ?x] => case_outcome (split_documents L a b x)
  | |- context [OpenAIEmbeddings L ?a ?x] => case_outcome (OpenAIEmbeddings L a x)
  | |- context [from_documents L ?a ?b ?x] => case_outcome (from_documents L a b x)
  | |- context [as_retriever L ?a ?x] => case_outcome (as_retriever L a x)
  | |- context [ChatOpenAI L ?a ?b ?x] => case_outcome (ChatOpenAI L a b x)
  | |- context [hub_pull L ?a ?x] => case_outcome (hub_pull L a x)
  | |- context [retriever_invoke L ?a ?b ?x] => case_outcome (retriever_invoke L a b x)
  | |- context [prompt_invoke L ?a ?b ?x] => case_outcome (prompt_invoke L a b x)
  | |- context [llm_invoke L ?a ?b ?x] => case_outcome (llm_invoke L a b x)
  | |- context [StrOutputParser_invoke L ?a ?x] =>
      case_outcome (StrOutputParser_invoke L a x)
  end.

Ltac every_run := unfold_py; repeat (cbn; case_service); cbn.

(** X9 - whatever the collaborators answer, [main] calls them in the order
    of the script and each at most once: the calls of a run are the first
    so many of [load_dotenv], loader, [load], splitter, [split_documents],
    embeddings, [from_documents], [as_retriever], chat model, [hub.pull],
    retrieval, prompt, model, parser.  None is skipped, none repeated. *)
Theorem main_calls_in_order (w : world (X L)) :
  exists events,
    trace (snd (main w)) = (trace w ++ events)%list
    /\ map call_rank (calls_of events) = seq 0 (length (calls_of events)).
Proof.
  every_run.
  all: rewrite <- ?app_assoc; eexists; (split; [reflexivity |]).
  all: reflexivity.
Qed.

(** X10 - whatever the collaborators answer, [main] calls them with the
    arguments the script fixes: the one URL and the three classes, chunk
    size 1000 with overlap 200, the model [gpt-4o], the prompt
    [rlm/rag-prompt], the one question, which is also the question the
    prompt receives; and it never hands the splitter an empty list. *)
Theorem main_call_arguments (w : world (X L)) :
  exists events,
    trace (snd (main w)) = (trace w ++ events)%list
    /\ Forall written_in_main (calls_of events).
Proof.
  every_run.
  all: rewrite <- ?app_assoc; eexists; (split; [reflexivity |]).
  all: cbn; repeat constructor.
  all: first [discriminate | apply lookup_insert_eq].
Qed.

(** X11 - [main] lets no [Exception] out: what can leave it is only what
    [except Exception] does not cover. *)
Theorem main_absorbs_exceptions (w w' : world (X L)) (e : exn) :
  main w = (Raise e, w') -> is_Exception e = false.
Proof.
  unfold main, try_except.
  destruct (main_try w) as [[[] | e1] w1]; [discriminate |].
  destruct (is_Exception e1) eqn:He1; [discriminate |].
  intros [= <- _]. exact He1.
Qed.

(** X12 - [main] never ends in silence: when it returns, the last thing it
    did was to print, and the line is the notice that no document was
    loaded, or the report of an [Exception], or comes right after the call
    of the output parser, the answer. *)
Theorem main_always_reports (w : world (X L)) :
  fst (main w) = Return tt ->
  exists earlier line,
    trace (snd (main w)) = (earlier ++ [Print line])%list
    /\ (line = no_documents_message
        \/ (exists e, is_Exception e = true /\ line = main_error_line e)
        \/ exists before, earlier = (before ++ [Call Parser_invoke])%list).
Proof.
  every_run.
  all: try discriminate.
  all: intros _; eexists _, _; (split; [reflexivity |]).
  all: first
         [ left; reflexivity
         | right; left; eexists; (split; [| reflexivity]);
           first [eassumption | reflexivity]
         | right; right; eexists; reflexivity ].
Qed.

End Script.

Lemma main_absorbs_exceptions_witness :
  is_Exception (Interrupt "KeyboardInterrupt") = false.
Proof.
  eapply (main_absorbs_exceptions (L := Scenarios.interrupted) Doubles.start).
  reflexivity.
Defined.

Lemma main_always_reports_witness :
  exists earlier line,
    trace (snd (main (L := Doubles.all_well Scenarios.with_key) Doubles.start))
    = (earlier ++ [Print line])%list
    /\ (line = no_documents_message
        \/ (exists e, is_Exception e = true /\ line = main_error_line e)
        \/ exists before, earlier = (before ++ [Call Parser_invoke])%list).
Proof.
  apply (main_always_reports (L := Doubles.all_well Scenarios.with_key)
           Doubles.start).
  vm_compute. reflexivity.
Defined.

(** ** Runs of the script, by what the outside answers *)

Section Runs.

Context {L : Collaborators}.

(** With the credential in place the configuration returns and the
    environment is the one [load_dotenv] made. *)
Lemma configurar_ambiente_returns (w : world (X L))
    (env' : gmap string string) (x0 : X L) :
  load_dotenv L (environ w) (ext w) = (env', x0) ->
  has_credential env' = true ->
  configurar_ambiente w = (Return tt, World env' x0 (trace w ++ [Call Load_dotenv])).
Proof.
  intros Hdotenv Hkey. unfold has_credential in Hkey.
  destruct (env' !! OPENAI_API_KEY) as [key |] eqn:Hlookup; [| discriminate].
  apply configurar_ambiente_with_key with (key := key); [assumption.. |].
  intros ->. discriminate.
Qed.

(** The script from the loading on, in the state the configuration left. *)
Ltac configured Hdotenv Hkey :=
  unfold main, main_try, try_except; unfold bind at 1;
  rewrite (configurar_ambiente_returns _ _ _ Hdotenv Hkey).

Ltac answered H := rewrite H; cbn.

(** X13 - with the credential in place, a load that gives no document
    ends the run before any splitting, indexing or generation: [main]
    prints the notice that no document was loaded and returns.  If the
    load failed with an [Exception], the line of the load error comes
    first; if the loader handed back an empty list, the notice alone. *)
Theorem main_stops_without_documents (w : world (X L))
    (env' : gmap string string) (x0 : X L) :
  load_dotenv L (environ w) (ext w) = (env', x0) ->
  has_credential env' = true ->
  (forall e x1,
     WebBaseLoader L URLS POST_CLASSES x0 = (Raise e, x1) ->
     is_Exception e = true ->
     main w
     = (Return tt,
        World env' x1
          (trace w ++ [Call Load_dotenv;
                       Call (WebBaseLoader_init URLS POST_CLASSES);
                       Print (load_error_line e);
                       Print no_documents_message])))
  /\ (forall l x1 e x2,
        WebBaseLoader L URLS POST_CLASSES x0 = (Return l, x1) ->
        load L l x1 = (Raise e, x2) ->
        is_Exception e = true ->
        main w
        = (Return tt,
           World env' x2
             (trace w ++ [Call Load_dotenv;
                          Call (WebBaseLoader_init URLS POST_CLASSES);
                          Call Loader_load;
                          Print (load_error_line e);
                          Print no_documents_message])))
  /\ (forall l x1 x2,
        WebBaseLoader L URLS POST_CLASSES x0 = (Return l, x1) ->
        load L l x1 = (Return [], x2) ->
        main w
        = (Return tt,
           World env' x2
             (trace w ++ [Call Load_dotenv;
                          Call (WebBaseLoader_init URLS POST_CLASSES);
                          Call Loader_load;
                          Print no_documents_message]))).
Proof.
  intros Hdotenv Hkey.
  repeat split.
  - intros e x1 Hinit He. configured Hdotenv Hkey.
    unfold bind at 1. rewrite carregar_documentos_run. cbn.
    rewrite Hinit, He. unfold after, print. tidy_trace.
  - intros l x1 e x2 Hinit Hload He. configured Hdotenv Hkey.
    unfold bind at 1. rewrite carregar_documentos_run. cbn.
    rewrite Hinit, Hload, He. unfold after, print. tidy_trace.
  - intros l x1 x2 Hinit Hload. configured Hdotenv Hkey.
    unfold bind at 1. rewrite carregar_documentos_run. cbn.
    rewrite Hinit, Hload. unfold after, print. tidy_trace.
Qed.

(** X14 - with the documents loaded and split, a build of the index that
    fails with an [Exception] is reported twice, once by
    [criar_vectorstore] and once by [main], which then returns; the
    retriever, the chat model and the prompt are never asked for. *)
Theorem main_reports_build_failure_twice (w : world (X L))
    env' x0 l x1 doc docs x2 text_splitter x3 chunks x4 embedding x5 e x6 :
  load_dotenv L (environ w) (ext w) = (env', x0) ->
  has_credential env' = true ->
  WebBaseLoader L URLS POST_CLASSES x0 = (Return l, x1) ->
  load L l x1 = (Return (doc :: docs), x2) ->
  RecursiveCharacterTextSplitter L 1000 200 x2 = (Return text_splitter, x3) ->
  split_documents L text_splitter (doc :: docs) x3 = (Return chunks, x4) ->
  OpenAIEmbeddings L env' x4 = (Return embedding, x5) ->
  from_documents L chunks embedding x5 = (Raise e, x6) ->
  is_Exception e = true ->
  main w
  = (Return tt,
     World env' x6
       (trace w ++ [Call Load_dotenv;
                    Call (WebBaseLoader_init URLS POST_CLASSES);
                    Call Loader_load;
                    Call (TextSplitter_init 1000 200);
                    Call (Split_documents (doc :: docs));
                    Call OpenAIEmbeddings_init;
                    Call (Chroma_from_documents chunks);
                    Print (index_error_line e);
                    Print (main_error_line e)])).
Proof.
  intros Hdotenv Hkey Hinit Hload Hsplitter Hsplit Hembeddings Hbuild He.
  configured Hdotenv Hkey.
  unfold bind at 1. rewrite carregar_documentos_run. cbn.
  rewrite Hinit, Hload. unfold after. unfold_py.
  unfold DEFAULT_CHUNK_SIZE, DEFAULT_CHUNK_OVERLAP, DEFAULT_MODEL,
    DEFAULT_PROMPT_TEMPLATE.
  cbn.
  answered Hsplitter. answered Hsplit. answered Hembeddings. answered Hbuild.
  rewrite He. cbn. rewrite He. tidy_trace.
Qed.

(** X15 - the run in which everything answers: the documents the loader
    returned are what is split, the chunks are what is indexed, the
    retriever of that index is the one of the chain, the segments it
    retrieves for the question make the context of the prompt, and the
    decoded answer is the one line printed, after fourteen calls. *)
Theorem main_prints_the_answer (w : world (X L))
    env' x0 l x1 doc docs x2 text_splitter x3 chunks x4 embedding x5 index x6
    r x7 llm x8 prompt x9 retrieved x10 value x11 m x12 resposta x13 :
  load_dotenv L (environ w) (ext w) = (env', x0) ->
  has_credential env' = true ->
  WebBaseLoader L URLS POST_CLASSES x0 = (Return l, x1) ->
  load L l x1 = (Return (doc :: docs), x2) ->
  RecursiveCharacterTextSplitter L 1000 200 x2 = (Return text_splitter, x3) ->
  split_documents L text_splitter (doc :: docs) x3 = (Return chunks, x4) ->
  OpenAIEmbeddings L env' x4 = (Return embedding, x5) ->
  from_documents L chunks embedding x5 = (Return index, x6) ->
  as_retriever L index x6 = (Return r, x7) ->
  ChatOpenAI L "gpt-4o" env' x7 = (Return llm, x8) ->
  hub_pull L "rlm/rag-prompt" x8 = (Return prompt, x9) ->
  retriever_invoke L r QUESTION x9 = (Return retrieved, x10) ->
  prompt_invoke L prompt (prompt_inputs retrieved QUESTION) x10
  = (Return value, x11) ->
  llm_invoke L llm value x11 = (Return m, x12) ->
  StrOutputParser_invoke L m x12 = (Return resposta, x13) ->
  main w
  = (Return tt,
     World env' x13
       (trace w ++ [Call Load_dotenv;
                    Call (WebBaseLoader_init URLS POST_CLASSES);
                    Call Loader_load;
                    Call (TextSplitter_init 1000 200);
                    Call (Split_documents (doc :: docs));
                    Call OpenAIEmbeddings_init;
                    Call (Chroma_from_documents chunks);
                    Call As_retriever;
                    Call (ChatOpenAI_init "gpt-4o");
                    Call (Hub_pull "rlm/rag-prompt");
                    Call (Retriever_invoke QUESTION);
                    Call (Prompt_invoke (prompt_inputs retrieved QUESTION));
                    Call Llm_invoke;
                    Call Parser_invoke;
                    Print resposta])).
Proof.
  intros Hdotenv Hkey Hinit Hload Hsplitter Hsplit Hembeddings Hbuild
    Hretriever Hllm Hhub Hretrieve Hprompt Hgenerate Hdecode.
  configured Hdotenv Hkey.
  unfold bind at 1. rewrite carregar_documentos_run. cbn.
  rewrite Hinit, Hload. unfold after. unfold_py.
  unfold DEFAULT_CHUNK_SIZE, DEFAULT_CHUNK_OVERLAP, DEFAULT_MODEL,
    DEFAULT_PROMPT_TEMPLATE.
  cbn.
  answered Hsplitter. answered Hsplit. answered Hembeddings. answered Hbuild.
  answered Hretriever. answered Hllm. answered Hhub. answered Hretrieve.
  unfold prompt_inputs in Hprompt.
  answered Hprompt. answered Hgenerate. answered Hdecode.
  unfold prompt_inputs. tidy_trace.
Qed.

End Runs.

Lemma main_stops_without_documents_witness :
  main (L := Scenarios.nothing_loads) Doubles.start
  = (Return tt,
     World Scenarios.with_key 3%nat
       [Call Load_dotenv;
        Call (WebBaseLoader_init URLS POST_CLASSES);
        Call Loader_load;
        Print "Erro ao carregar documentos: connection refused";
        Print no_documents_message]).
Proof.
  apply (proj1 (proj2 (main_stops_without_documents
                         (L := Scenarios.nothing_loads) Doubles.start
                         Scenarios.with_key 1%nat eq_refl eq_refl))
           URLS 2%nat Doubles.refused 3%nat);
    reflexivity.
Defined.

Lemma main_reports_build_failure_twice_witness :
  main (L := Scenarios.index_fails) Doubles.start
  = (Return tt,
     World Scenarios.with_key 7%nat
       [Call Load_dotenv;
        Call (WebBaseLoader_init URLS POST_CLASSES);
        Call Loader_load;
        Call (TextSplitter_init 1000 200);
        Call (Split_documents (map Doubles.page URLS));
        Call OpenAIEmbeddings_init;
        Call (Chroma_from_documents (map Doubles.page URLS));
        Print "Erro ao criar vectorstore: rate limit reached";
        Print "Erro durante a execução: rate limit reached"]).
Proof.
  eapply (main_reports_build_failure_twice (L := Scenarios.index_fails)
            Doubles.start)
    with (e := Doubles.rate_limited);
    reflexivity.
Defined.

Lemma main_prints_the_answer_witness :
  main (L := Doubles.all_well Scenarios.with_key) Doubles.start
  = (Return tt,
     World Scenarios.with_key 14%nat
       [Call Load_dotenv;
        Call (WebBaseLoader_init URLS POST_CLASSES);
        Call Loader_load;
        Call (TextSplitter_init 1000 200);
        Call (Split_documents (map Doubles.page URLS));
        Call OpenAIEmbeddings_init;
        Call (Chroma_from_documents (map Doubles.page URLS));
        Call As_retriever;
        Call (ChatOpenAI_init "gpt-4o");
        Call (Hub_pull "rlm/rag-prompt");
        Call (Retriever_invoke QUESTION);
        Call (Prompt_invoke (prompt_inputs (map Doubles.page URLS) QUESTION));
        Call Llm_invoke;
        Call Parser_invoke;
        Print ("answer to " +:+ format_docs (map Doubles.page URLS) +:+ " ? "
               +:+ QUESTION)]).
Proof.
  eapply (main_prints_the_answer (L := Doubles.all_well Scenarios.with_key)
            Doubles.start);
    reflexivity.
Defined.
